(** * Titanic A/B test: the experiment controller and the data loader of [app.py]

    The Streamlit script [src/app.py] is re-executed from top to bottom on every
    user interaction.  Between two executions only [st.session_state] survives.
    This file embeds

    - the session state and the three button handlers (lines 93-100, 115-156),
    - one execution of the script, [st.rerun()] included,
    - [load_data] (lines 41-53) with its [try]/[except Exception], and its
      cache,
    - the calls of [chart1] and [chart2] (lines 60-88, 128-131), which return
      or raise,

    and proves the properties of the specification against them.

    Python floats are IEEE 754 binary64 numbers: they are modelled by Rocq's
    primitive floats, whose operations are the same binary64 operations. *)

From Stdlib Require Import Bool List String ZArith NArith Lia Floats QArith.
From Stdlib Require Import DecimalString.
Import ListNotations.

Close Scope Q_scope.
Open Scope string_scope.
Open Scope list_scope.

(** ** Python values used by the script *)

(** [bool(x)] for a float: every float except [0.0] and [-0.0] is truthy
    ([nan] included). *)
Definition truthy_float (x : float) : bool := negb (x =? 0)%float.

(** [bool(v)] for a value that is [None] or a float. *)
Definition truthy_time (v : option float) : bool :=
  match v with
  | None => false
  | Some x => truthy_float x
  end.

(** [bool(v)] for a value that is [None] or a string: [None] and [''] are falsy. *)
Definition truthy_str (v : option string) : bool :=
  match v with
  | None => false
  | Some s => negb (String.eqb s "")
  end.

(** [v == text] for a value that is [None] or a string. *)
Definition value_is (v : option string) (text : string) : bool :=
  match v with
  | None => false
  | Some s => String.eqb s text
  end.

(** ** [random.choice]

    [random.choice(seq)] returns [seq[i]] where [i = _randbelow(len(seq))] lies in
    [range(len(seq))].  The generator's raw output is the input [draw]; it is
    reduced into the index range. *)
Definition randbelow (n draw : nat) : nat := Nat.modulo draw n.

Definition random_choice (seq : list string) (draw : nat) : string :=
  List.nth (randbelow (List.length seq) draw) seq "".

(** The literal list of line 118. *)
Definition charts : list string := ["chart1"; "chart2"].

(** ** Session state *)

(** [st.session_state] as the script uses it.  [start_time] and [selected_chart]
    hold [None] or a value; [elapsed_time] is an attribute that is absent
    ([None] here) until line 137 creates it, and that line 155 deletes. *)
Record Session : Type := mkSession {
  start_time : option float;
  chart_displayed : bool;
  selected_chart : option string;
  answered : bool;
  elapsed_time : option float
}.

(** Lines 93-100 on a fresh [st.session_state]; on later executions the four
    keys exist and the lines change nothing. *)
Definition default_session : Session :=
  {| start_time := None;
     chart_displayed := false;
     selected_chart := None;
     answered := false;
     elapsed_time := None |}.

Definition set_start_time (v : option float) (s : Session) : Session :=
  {| start_time := v;
     chart_displayed := chart_displayed s;
     selected_chart := selected_chart s;
     answered := answered s;
     elapsed_time := elapsed_time s |}.

Definition set_chart_displayed (v : bool) (s : Session) : Session :=
  {| start_time := start_time s;
     chart_displayed := v;
     selected_chart := selected_chart s;
     answered := answered s;
     elapsed_time := elapsed_time s |}.

Definition set_selected_chart (v : option string) (s : Session) : Session :=
  {| start_time := start_time s;
     chart_displayed := chart_displayed s;
     selected_chart := v;
     answered := answered s;
     elapsed_time := elapsed_time s |}.

Definition set_answered (v : bool) (s : Session) : Session :=
  {| start_time := start_time s;
     chart_displayed := chart_displayed s;
     selected_chart := selected_chart s;
     answered := v;
     elapsed_time := elapsed_time s |}.

Definition set_elapsed_time (v : option float) (s : Session) : Session :=
  {| start_time := start_time s;
     chart_displayed := chart_displayed s;
     selected_chart := selected_chart s;
     answered := answered s;
     elapsed_time := v |}.

(** ** What one execution receives and what it draws *)

Inductive Widget : Type := ShowChart | IAnswered | GoBack.

Definition label (w : Widget) : string :=
  match w with
  | ShowChart => "Show a chart"
  | IAnswered => "I answered your question"
  | GoBack => "Go Back"
  end.

Definition Widget_eqb (a b : Widget) : bool :=
  match a, b with
  | ShowChart, ShowChart | IAnswered, IAnswered | GoBack, GoBack => true
  | _, _ => false
  end.

(** The environment of one execution: the button the user pressed (if any), the
    value [time.time()] returns and the generator's draw. *)
Record Input : Type := mkInput {
  click : option Widget;
  now : float;
  draw : nat
}.

(** The pass that [st.rerun()] starts: no button is pressed in it. *)
Definition no_click (i : Input) : Input :=
  {| click := None; now := now i; draw := draw i |}.

Inductive Element : Type :=
| Button (w : Widget)
| Subheader (text : string)
| Pyplot (chart : string)
| ErrorMsg (text : string)
| SuccessElapsed (seconds : float).

Inductive PyError : Type :=
| TypeError (text : string).

(** ** The script monad

    A piece of the script reads and writes the session, draws elements, and
    ends normally, by [st.rerun()] (which unwinds the execution and drops what
    it drew), or by an exception. *)
Inductive Outcome (A : Type) : Type :=
| Normal (a : A) (s : Session) (ui : list Element)
| RerunRequested (s : Session)
| Raised (e : PyError) (s : Session).

Arguments Normal {A} a s ui.
Arguments RerunRequested {A} s.
Arguments Raised {A} e s.

Definition M (A : Type) : Type := Session -> Outcome A.

Definition ret {A} (a : A) : M A := fun s => Normal a s [].

Definition bind {A B} (m : M A) (f : A -> M B) : M B :=
  fun s =>
    match m s with
    | Normal a s1 ui1 =>
        match f a s1 with
        | Normal b s2 ui2 => Normal b s2 (ui1 ++ ui2)
        | RerunRequested s2 => RerunRequested s2
        | Raised e s2 => Raised e s2
        end
    | RerunRequested s1 => RerunRequested s1
    | Raised e s1 => Raised e s1
    end.

Declare Scope script_scope.
Delimit Scope script_scope with script.
Notation "x <- m ;; k" := (bind m (fun x => k))
  (at level 61, m at next level, right associativity) : script_scope.
Notation "m ;;; k" := (bind m (fun _ => k))
  (at level 61, right associativity) : script_scope.
Open Scope script_scope.

Definition gets {A} (f : Session -> A) : M A := fun s => Normal (f s) s [].
Definition modify (f : Session -> Session) : M unit := fun s => Normal tt (f s) [].
Definition emit (e : Element) : M unit := fun s => Normal tt s [e].
Definition rerun : M unit := fun s => RerunRequested s.
Definition raise {A} (e : PyError) : M A := fun s => Raised e s.
Definition when (b : bool) (m : M unit) : M unit := if b then m else ret tt.

(** [st.button(label)]: draws the button and returns [True] in the execution
    that its press triggered. *)
Definition button (w : Widget) (i : Input) : M bool :=
  fun s =>
    Normal (match click i with Some c => Widget_eqb c w | None => false end) s [Button w].

(** [x - v] where [v] is [None] or a float: [float - NoneType] is a [TypeError]. *)
Definition float_minus (x : float) (v : option float) : M float :=
  match v with
  | Some y => ret (x - y)%float
  | None => raise (TypeError "unsupported operand type(s) for -: 'float' and 'NoneType'")
  end.

Definition session_of {A} (o : Outcome A) : Session :=
  match o with
  | Normal _ s _ => s
  | RerunRequested s => s
  | Raised _ s => s
  end.

Definition ui_of {A} (o : Outcome A) : list Element :=
  match o with
  | Normal _ _ ui => ui
  | RerunRequested _ => []
  | Raised _ _ => []
  end.

Definition raises {A} (o : Outcome A) : bool :=
  match o with
  | Raised _ _ => true
  | _ => false
  end.

(** ** The three handlers *)

(** Lines 117-120, the body of the "Show a chart" button. *)
Definition show (i : Input) : M unit :=
  modify (set_start_time (Some (now i))) ;;;
  modify (set_selected_chart (Some (random_choice charts (draw i)))) ;;;
  modify (set_chart_displayed true) ;;;
  rerun.

(** Lines 136-140, the body of the "I answered your question" button. *)
Definition markAnswered (i : Input) : M unit :=
  st <- gets start_time ;;
  (if truthy_time st
   then e <- float_minus (now i) st ;; modify (set_elapsed_time (Some e))
   else emit (ErrorMsg "Start time not recorded. Please try again.")) ;;;
  modify (set_answered true).

(** Lines 150-156, the body of the "Go Back" button.  [hasattr] is true when
    the attribute exists; [del] removes it. *)
Definition reset : M unit :=
  modify (set_chart_displayed false) ;;;
  modify (set_start_time None) ;;;
  modify (set_selected_chart None) ;;;
  modify (set_answered false) ;;;
  has <- gets (fun s => match elapsed_time s with Some _ => true | None => false end) ;;
  when has (modify (set_elapsed_time None)) ;;;
  rerun.

(** The generator outputs below [n] for which [show], run at clock reading [t]
    on session [s], stores the chart [c]; and their share of the [n] outputs,
    which is the probability of [c] when the [n] outputs are equally likely.
    [_randbelow(2)] delivers the outputs below 2; the generator's words of [w]
    bits are the outputs below [2 ^ w]. *)
Definition draws_selecting (t : float) (s : Session) (n : nat) (c : string) : nat :=
  List.length
    (filter
       (fun d => value_is (selected_chart (session_of (show (mkInput (Some ShowChart) t d) s))) c)
       (List.seq 0 n)).

Definition selection_probability (t : float) (s : Session) (n : nat) (c : string) : Q :=
  Qmake (Z.of_nat (draws_selecting t s n c)) (Pos.of_nat n).

(** ** One execution of the script *)

(** Lines 115-120. *)
Definition show_chart_section (i : Input) : M unit :=
  displayed <- gets chart_displayed ;;
  when (negb displayed)
    (pressed <- button ShowChart i ;;
     when pressed (show i)).

(** Lines 125-156. *)
Definition display_section (i : Input) : M unit :=
  displayed <- gets chart_displayed ;;
  chart <- gets selected_chart ;;
  when (displayed && truthy_str chart)
    (emit (Subheader "Your Randomly Selected Chart") ;;;
     (if value_is chart "chart1"
      then emit (Pyplot "chart1")
      else emit (Pyplot "chart2")) ;;;
     a <- gets answered ;;
     when (negb a)
       (pressed <- button IAnswered i ;;
        when pressed (markAnswered i)) ;;;
     a' <- gets answered ;;
     when a'
       (e <- gets elapsed_time ;;
        match e with
        | Some x => emit (SuccessElapsed x)
        | None => ret tt
        end ;;;
        pressed <- button GoBack i ;;
        when pressed reset)).

(** One pass over lines 115-156. *)
Definition pass (i : Input) : M unit :=
  show_chart_section i ;;; display_section i.

(** One execution: a pass, and the pass [st.rerun()] starts when it is called. *)
Definition script (i : Input) : M unit :=
  fun s =>
    match pass i s with
    | RerunRequested s1 => pass (no_click i) s1
    | o => o
    end.

(** The session states the application can be in. *)
Inductive reachable : Session -> Prop :=
| reachable_start : reachable default_session
| reachable_script : forall i s, reachable s -> reachable (session_of (script i s)).

(** The session after a sequence of executions, from the fresh session. *)
Definition run_inputs (l : list Input) : Session :=
  fold_left (fun s i => session_of (script i s)) l default_session.

(** The states of the experiment, read off what the script draws. *)
Definition Idle (s : Session) : Prop := chart_displayed s = false.

Definition Showing (s : Session) : Prop :=
  chart_displayed s = true /\ truthy_str (selected_chart s) = true /\ answered s = false.

Definition Answered (s : Session) : Prop :=
  chart_displayed s = true /\ truthy_str (selected_chart s) = true /\ answered s = true.

(** The invariants of section 3 of the specification. *)
Definition chart_invariant (s : Session) : Prop :=
  selected_chart s <> None <-> chart_displayed s = true.

Definition elapsed_invariant (s : Session) : Prop :=
  elapsed_time s <> None -> answered s = true.

(** The four forms a session takes while the application runs. *)
Inductive session_shape : Session -> Prop :=
| shape_idle : session_shape default_session
| shape_showing t c :
    In c charts ->
    session_shape (mkSession (Some t) true (Some c) false None)
| shape_timed t c e :
    In c charts -> truthy_float t = true ->
    session_shape (mkSession (Some t) true (Some c) true (Some e))
| shape_untimed t c :
    In c charts -> truthy_float t = false ->
    session_shape (mkSession (Some t) true (Some c) true None).

(** ** [load_data] *)

(** A row of the dataset: the three columns the charts read. *)
Record Passenger : Type := mkPassenger {
  pclass : Z;
  sex : string;
  survived : Z
}.

Definition Dataset : Type := list Passenger.

(** A Python exception: whether it is an instance of [Exception] (the class the
    [except] clause of line 49 names) and its text. *)
Record PyException : Type := mkPyException {
  is_Exception : bool;
  message : string
}.

(** What a call into a library does. *)
Inductive Call (A : Type) : Type :=
| Returns (a : A)
| Throws (e : PyException).

Arguments Returns {A} a.
Arguments Throws {A} e.

Inductive Notice : Type :=
| SuccessNotice (text : string)
| WarningNotice (text : string).

Inductive Loaded : Type :=
| Data (data : Dataset) (notices : list Notice)
| Propagated (e : PyException) (notices : list Notice).

(** Lines 42-53.  [primary] is what lines 45-47 do ([st.connection] then
    [conn.read()]); [fallback] is what [sns.load_dataset('titanic')] of line 52
    does when it is called.  Line 52 stands in the [except] block, outside any
    [try]. *)
Definition load_data (primary fallback : Call Dataset) : Loaded :=
  match primary with
  | Returns data =>
      Data data [SuccessNotice "Data successfully loaded from Google Sheet using secrets!"]
  | Throws e =>
      if is_Exception e then
        let notices :=
          [WarningNotice "Error loading Google Sheet. Falling back to Seaborn's Titanic dataset.";
           WarningNotice ("**Error details**: " ++ message e)] in
        match fallback with
        | Returns data => Data data notices
        | Throws e' => Propagated e' notices
        end
      else Propagated e []
  end.

(** ** What the page offers *)

(** The buttons among the elements an execution drew, in page order. *)
Definition buttons (ui : list Element) : list Widget :=
  flat_map (fun e => match e with Button w => [w] | _ => [] end) ui.

(** The button whose [st.button] call a session reaches when nothing is
    pressed: line 116 when no chart is displayed, line 135 while the chart is
    unanswered, line 148 once it is answered. *)
Definition offered (s : Session) : Widget :=
  if chart_displayed s then (if answered s then GoBack else IAnswered) else ShowChart.

(** The session after the executions [l], starting from [s]. *)
Definition run_from (s : Session) (l : list Input) : Session :=
  fold_left (fun s i => session_of (script i s)) l s.

(** ** The chart functions (lines 60-88) and an execution that calls them *)

(** What [chart1(data)] and [chart2(data)] do on the loaded dataset: return a
    figure, or raise (a dataset without the columns [pclass], [sex] and
    [survived] makes [groupby] and [pivot_table] raise a [KeyError]).  The
    figure itself is not looked at. *)
Record ChartFunctions : Type := mkChartFunctions {
  chart1 : Call unit;
  chart2 : Call unit
}.

(** Lines 128-131: [chart1(data)] when the session names 'chart1', else
    [chart2(data)]. *)
Definition chart_call (r : ChartFunctions) (chart : option string) : Call unit :=
  if value_is chart "chart1" then chart1 r else chart2 r.

(** How a pass ends once the chart functions are taken into account: as
    [pass] describes, or at line 129 or 131 with the exception of the chart
    function, the session as it was there and the elements drawn before. *)
Inductive Run : Type :=
| Completed (o : Outcome unit)
| ChartRaised (e : PyException) (s : Session) (ui : list Element).

(** One pass over lines 115-156.  [display_section] draws the chart
    unconditionally; here the call of the chart function comes first, and the
    pass goes on as [pass] does only when that call returns. *)
Definition pass_with (r : ChartFunctions) (i : Input) (s : Session) : Run :=
  match show_chart_section i s with
  | Normal _ s1 ui1 =>
      if chart_displayed s1 && truthy_str (selected_chart s1) then
        match chart_call r (selected_chart s1) with
        | Returns _ => Completed (pass i s)
        | Throws e =>
            ChartRaised e s1 (ui1 ++ [Subheader "Your Randomly Selected Chart"])
        end
      else Completed (pass i s)
  | _ => Completed (pass i s)
  end.

(** One execution: a pass, and the pass [st.rerun()] starts when it is called. *)
Definition script_with (r : ChartFunctions) (i : Input) (s : Session) : Run :=
  match pass_with r i s with
  | Completed (RerunRequested s1) => pass_with r (no_click i) s1
  | run => run
  end.

Definition session_after (run : Run) : Session :=
  match run with
  | Completed o => session_of o
  | ChartRaised _ s _ => s
  end.

Definition drawn (run : Run) : list Element :=
  match run with
  | Completed o => ui_of o
  | ChartRaised _ _ ui => ui
  end.

(** The session in which line 125 is reached: the one "Show a chart" wrote when
    its press was handled, else the one the execution started with. *)
Definition after_show_press (i : Input) (s : Session) : Session :=
  match click i with
  | Some ShowChart => if chart_displayed s then s else session_of (show i s)
  | _ => s
  end.

(** ** The text of the success message (line 145) *)

Definition decimal (n : N) : string := NilZero.string_of_uint (N.to_uint n).

Definition two_digits (n : N) : string :=
  if (n <? 10)%N then "0" ++ decimal n else decimal n.

(** The number [m * 2 ^ e] in hundredths, rounded to the nearest integer, ties
    to the even one. *)
Definition hundredths (m : positive) (e : Z) : N :=
  match e with
  | Zneg p =>
      let num := (Npos m * 100)%N in
      let den := (2 ^ Npos p)%N in
      let q := (num / den)%N in
      match (2 * (num mod den) ?= den)%N with
      | Lt => q
      | Gt => (q + 1)%N
      | Eq => if N.even q then q else (q + 1)%N
      end
  | _ => (Npos m * 2 ^ Z.to_N e * 100)%N
  end.

(** [f"{x:.2f}"]: the correctly rounded decimal with two digits after the
    point, the sign kept also when the digits are all zero. *)
Definition format_2f (x : float) : string :=
  match Prim2SF x with
  | S754_nan => "nan"
  | S754_infinity s => if s then "-inf" else "inf"
  | S754_zero s => if s then "-0.00" else "0.00"
  | S754_finite s m e =>
      let h := hundredths m e in
      (if s then "-" else "") ++ decimal (h / 100) ++ "." ++ two_digits (h mod 100)
  end.

Definition success_text (elapsed : float) : string :=
  "**It took you " ++ format_2f elapsed ++ " seconds to answer the question!**".

(** The success messages among the elements drawn, as the page shows them. *)
Definition success_messages (ui : list Element) : list string :=
  flat_map (fun e => match e with SuccessElapsed x => [success_text x] | _ => [] end) ui.

(** ** [@st.cache_data] around [load_data] (lines 41 and 55)

    [load_data] takes no argument, so the cache holds at most one entry.  The
    entry is written when the body returns and not when it raises; it stores
    the returned data together with the [st] elements the body drew, which a
    hit draws again.  No [ttl] or [max_entries] is given, so an entry stays. *)
Definition Cache : Type := option (Dataset * list Notice).

(** One evaluation of [load_data()] at line 55. *)
Definition cached_load_data (cache : Cache) (primary fallback : Call Dataset)
  : Loaded * Cache :=
  match cache with
  | Some (data, notices) => (Data data notices, cache)
  | None =>
      match load_data primary fallback with
      | Data data notices => (Data data notices, Some (data, notices))
      | Propagated e notices => (Propagated e notices, None)
      end
  end.

(** Line 55 in successive executions of the script; each pair says what the
    primary read and the fallback load would do during that execution. *)
Fixpoint load_calls (cache : Cache) (calls : list (Call Dataset * Call Dataset))
  : list Loaded :=
  match calls with
  | [] => []
  | (primary, fallback) :: rest =>
      let (r, cache') := cached_load_data cache primary fallback in
      r :: load_calls cache' rest
  end.

Definition is_propagated (r : Loaded) : bool :=
  match r with
  | Propagated _ _ => true
  | Data _ _ => false
  end.

(** ** Binary64 values that are numbers *)

(** A [spec_float] that is neither an infinity nor a NaN. *)
Definition SFfinite (x : spec_float) : bool :=
  match x with
  | S754_zero _ | S754_finite _ _ _ => true
  | _ => false
  end.

(** * Binary64 subtraction of ordered numbers

    [time.time() - start_time] is a binary64 subtraction.  Its result is not
    negative when both operands are numbers and the first is not below the
    second: the exact difference of the aligned mantissas is not negative and
    rounding keeps the sign. *)

Section Rounding_sign.
Variables prec emax : Z.

Lemma shr_1_nonneg (r : shr_record) :
  (0 <= shr_m r)%Z -> (0 <= shr_m (shr_1 r))%Z.
Proof.
  destruct r as [m r s]; simpl.
  destruct m as [|p|p]; [ | destruct p | ]; simpl; lia.
Qed.

Lemma iter_shr_1_nonneg (p : positive) :
  forall r, (0 <= shr_m r)%Z -> (0 <= shr_m (SpecFloat.iter_pos shr_1 p r))%Z.
Proof.
  induction p as [p IH|p IH|]; intros r Hr; simpl.
  - apply IH, IH, shr_1_nonneg, Hr.
  - apply IH, IH, Hr.
  - apply shr_1_nonneg, Hr.
Qed.

Lemma shr_fexp_nonneg (m e : Z) (l : location) :
  (0 <= m)%Z -> (0 <= shr_m (fst (shr_fexp prec emax m e l)))%Z.
Proof.
  intros Hm. unfold shr_fexp, shr.
  assert (H0 : (0 <= shr_m (shr_record_of_loc m l))%Z).
  { destruct l as [|[| |]]; simpl; exact Hm. }
  destruct (fexp prec emax (Zdigits2 m + e) - e)%Z; simpl; auto.
  apply iter_shr_1_nonneg, H0.
Qed.

Lemma round_nearest_even_nonneg (m : Z) (l : location) :
  (0 <= m)%Z -> (0 <= round_nearest_even m l)%Z.
Proof.
  intros Hm. destruct l as [|[| |]]; simpl; try lia.
  destruct (Z.even m); lia.
Qed.

Lemma binary_round_aux_nonneg (m e : Z) (l : location) :
  (0 <= m)%Z ->
  SFleb (S754_zero false) (binary_round_aux prec emax false m e l) = true.
Proof.
  intros Hm. unfold binary_round_aux.
  pose proof (shr_fexp_nonneg m e l Hm) as H1.
  destruct (shr_fexp prec emax m e l) as [r1 e1]; simpl in H1.
  pose proof (shr_fexp_nonneg _ e1 loc_Exact
                (round_nearest_even_nonneg _ (loc_of_shr_record r1) H1)) as H2.
  destruct (shr_fexp prec emax _ e1 loc_Exact) as [r2 e2]; simpl in H2.
  destruct (shr_m r2) as [|p|p]; try lia; try reflexivity.
  destruct (e2 <=? emax - prec)%Z; reflexivity.
Qed.

Lemma binary_normalize_nonneg (m e : Z) :
  (0 <= m)%Z ->
  SFleb (S754_zero false) (binary_normalize prec emax m e false) = true.
Proof.
  intros Hm. destruct m as [|p|p]; try lia; try reflexivity.
  simpl. unfold binary_round.
  destruct (shl_align p e _) as [mz ez].
  apply binary_round_aux_nonneg. lia.
Qed.
End Rounding_sign.

Lemma digits2_pos_bounds (m : positive) :
  (2 ^ (Z.pos (digits2_pos m) - 1) <= Z.pos m < 2 ^ Z.pos (digits2_pos m))%Z.
Proof.
  induction m as [m IH|m IH|]; simpl digits2_pos.
  - rewrite Pos2Z.inj_succ.
    replace (Z.succ (Z.pos (digits2_pos m)) - 1)%Z with (Z.succ (Z.pos (digits2_pos m) - 1))%Z by lia.
    rewrite !Z.pow_succ_r by lia. lia.
  - rewrite Pos2Z.inj_succ.
    replace (Z.succ (Z.pos (digits2_pos m)) - 1)%Z with (Z.succ (Z.pos (digits2_pos m) - 1))%Z by lia.
    rewrite !Z.pow_succ_r by lia. lia.
  - simpl. lia.
Qed.

Lemma iter_xO_value (d m : positive) :
  Z.pos (Pos.iter xO m d) = (Z.pos m * 2 ^ Z.pos d)%Z.
Proof.
  revert m. induction d as [|d IH] using Pos.peano_ind; intros m.
  - simpl. lia.
  - rewrite Pos.iter_succ, Pos2Z.inj_succ, Z.pow_succ_r by lia.
    rewrite Pos2Z.inj_xO, IH. lia.
Qed.

Lemma shl_align_value (m : positive) (e ez : Z) :
  (ez <= e)%Z ->
  Z.pos (fst (shl_align m e ez)) = (Z.pos m * 2 ^ (e - ez))%Z.
Proof.
  intros Hle. unfold shl_align.
  destruct (ez - e)%Z as [|d|d] eqn:Hd; cbn [fst].
  - replace (e - ez)%Z with 0%Z by lia. rewrite Z.pow_0_r, Z.mul_1_r. reflexivity.
  - lia.
  - rewrite iter_xO_value. f_equal. f_equal. lia.
Qed.

Lemma bounded_shape (m : positive) (e : Z) :
  bounded prec emax m e = true ->
  (Z.pos (digits2_pos m) <= 53 /\ (-1074 < e -> Z.pos (digits2_pos m) = 53))%Z.
Proof.
  unfold bounded, canonical_mantissa, fexp, SpecFloat.emin, prec, emax.
  intros H. apply andb_prop in H. destruct H as [H _].
  apply Z.eqb_eq in H. lia.
Qed.

(** A canonical mantissa at a larger exponent outweighs one at a smaller exponent. *)
Lemma aligned_lt (m1 m2 : positive) (e1 e2 : Z) :
  bounded prec emax m1 e1 = true -> bounded prec emax m2 e2 = true ->
  (e1 < e2)%Z ->
  (Z.pos m1 < Z.pos m2 * 2 ^ (e2 - e1))%Z.
Proof.
  intros B1 B2 Hlt.
  destruct (bounded_shape _ _ B1) as [D1 _].
  destruct (bounded_shape _ _ B2) as [_ D2].
  assert (He1 : (-1074 <= e1)%Z).
  { unfold bounded, canonical_mantissa, fexp, SpecFloat.emin, prec, emax in B1.
    apply andb_prop in B1. destruct B1 as [B1 _]. apply Z.eqb_eq in B1. lia. }
  specialize (D2 ltac:(lia)).
  pose proof (digits2_pos_bounds m1) as [_ U1].
  pose proof (digits2_pos_bounds m2) as [L2 _].
  rewrite D2 in L2.
  assert (P1 : (2 ^ Z.pos (digits2_pos m1) <= 2 ^ 53)%Z) by (apply Z.pow_le_mono_r; lia).
  assert (P2 : (2 ^ 1 <= 2 ^ (e2 - e1))%Z) by (apply Z.pow_le_mono_r; lia).
  change (2 ^ (53 - 1))%Z with 4503599627370496%Z in L2.
  change (2 ^ 53)%Z with 9007199254740992%Z in P1.
  change (2 ^ 1)%Z with 2%Z in P2.
  nia.
Qed.

Lemma SF64sub_nonneg (x y : spec_float) :
  valid_binary x = true -> valid_binary y = true ->
  SFfinite x = true -> SFfinite y = true ->
  SFleb y x = true ->
  SFleb (S754_zero false) (SF64sub x y) = true.
Proof.
  intros Vx Vy Fx Fy Hle.
  destruct x as [sx|sx| |sx mx ex]; try discriminate Fx;
  destruct y as [sy|sy| |sy my ey]; try discriminate Fy.
  - destruct sx, sy; reflexivity.
  - simpl in Hle |- *. destruct sy; [reflexivity | discriminate Hle].
  - simpl in Hle |- *. destruct sx; [discriminate Hle | reflexivity].
  - unfold SF64sub, SFsub.
    apply binary_normalize_nonneg.
    rewrite !shl_align_value by lia.
    simpl in Vx, Vy.
    unfold SFleb, SFcompare in Hle.
    assert (Px : (0 < 2 ^ (ex - Z.min ex ey))%Z) by (apply Z.pow_pos_nonneg; lia).
    assert (Py : (0 < 2 ^ (ey - Z.min ex ey))%Z) by (apply Z.pow_pos_nonneg; lia).
    destruct sx, sy; cbv [cond_Zopp]; try discriminate Hle; try nia.
    + (* both negative: |x| <= |y| *)
      destruct (Z.compare_spec ey ex) as [E|E|E]; try discriminate Hle.
      * subst ey. rewrite Z.min_id, Z.sub_diag, Z.pow_0_r in *.
        rewrite Pos.compare_cont_spec in Hle. simpl in Hle.
        destruct (Pos.compare_spec my mx); simpl in Hle; try discriminate Hle; lia.
      * pose proof (aligned_lt _ _ _ _ Vx Vy ltac:(lia)).
        rewrite Z.min_l, Z.sub_diag, Z.pow_0_r in * by lia. lia.
    + (* both positive: y <= x *)
      destruct (Z.compare_spec ey ex) as [E|E|E]; try discriminate Hle.
      * subst ey. rewrite Z.min_id, Z.sub_diag, Z.pow_0_r in *.
        rewrite Pos.compare_cont_spec in Hle. simpl in Hle.
        destruct (Pos.compare_spec my mx); simpl in Hle; try discriminate Hle; lia.
      * pose proof (aligned_lt _ _ _ _ Vy Vx ltac:(lia)).
        rewrite Z.min_r, Z.sub_diag, Z.pow_0_r in * by lia. lia.
Qed.

Lemma Prim2SF_finite (x : float) :
  is_finite x = true -> SFfinite (Prim2SF x) = true.
Proof.
  unfold is_finite, Prim2SF. intros H.
  apply negb_true_iff, orb_false_iff in H. destruct H as [Hn Hi].
  rewrite Hn, Hi.
  destruct (is_zero x); [reflexivity|].
  destruct (Z.frexp x) as [r e].
  destruct (shr_fexp prec emax _ _ _) as [sh e'].
  destruct (shr_m sh); reflexivity.
Qed.

Lemma float_sub_nonneg (a b : float) :
  is_finite a = true -> is_finite b = true ->
  (a <=? b)%float = true ->
  (0 <=? b - a)%float = true.
Proof.
  intros Fa Fb Hle.
  rewrite leb_spec in Hle |- *. rewrite sub_spec.
  change (Prim2SF 0) with (S754_zero false).
  apply SF64sub_nonneg; auto using Prim2SF_valid, Prim2SF_finite.
Qed.

(** * Facts about the handlers and about one execution *)

Arguments truthy_float : simpl never.

Ltac unfold_script :=
  cbv [script pass show_chart_section display_section show markAnswered reset
       float_minus bind when gets modify emit rerun raise ret button no_click].

Lemma random_choice_charts (d : nat) :
  random_choice charts d = "chart1" \/ random_choice charts d = "chart2".
Proof.
  unfold random_choice, randbelow, charts. cbn [List.length].
  pose proof (Nat.mod_upper_bound d 2 ltac:(lia)) as H.
  destruct (Nat.modulo d 2) as [|[|n]]; [left | right | lia]; reflexivity.
Qed.

Lemma random_choice_in_charts (d : nat) : In (random_choice charts d) charts.
Proof.
  destruct (random_choice_charts d) as [H|H]; rewrite H; simpl; auto.
Qed.

Lemma charts_truthy (c : string) : In c charts -> truthy_str (Some c) = true.
Proof.
  simpl. intros [H|[H|[]]]; subst c; reflexivity.
Qed.

Lemma show_run (i : Input) (s : Session) :
  show i s =
  RerunRequested
    (mkSession (Some (now i)) true (Some (random_choice charts (draw i)))
               (answered s) (elapsed_time s)).
Proof. reflexivity. Qed.

Lemma markAnswered_timed (i : Input) (s : Session) (t : float) :
  start_time s = Some t -> truthy_float t = true ->
  markAnswered i s =
  Normal tt (set_answered true (set_elapsed_time (Some (now i - t)%float) s)) [].
Proof.
  intros Hs Ht. unfold_script. rewrite Hs. cbn. rewrite Ht. reflexivity.
Qed.

Lemma markAnswered_untimed (i : Input) (s : Session) :
  truthy_time (start_time s) = false ->
  markAnswered i s =
  Normal tt (set_answered true s)
    [ErrorMsg "Start time not recorded. Please try again."].
Proof.
  intros Hs. unfold_script. rewrite Hs. reflexivity.
Qed.

Lemma reset_run (s : Session) : reset s = RerunRequested default_session.
Proof.
  destruct s as [st cd sc an [e|]]; reflexivity.
Qed.

(** A pass in which no button is pressed draws the page and leaves the session
    as it is. *)
Lemma pass_no_click (i : Input) (s : Session) :
  click i = None -> exists ui, pass i s = Normal tt s ui.
Proof.
  intros Hc. destruct s as [st cd sc an el]. unfold_script. rewrite Hc. cbn.
  destruct cd; cbn.
  - destruct (truthy_str sc); cbn; [|eauto].
    destruct (value_is sc "chart1"); cbn;
      destruct an; cbn; destruct el; cbn; eauto.
  - eauto.
Qed.

Lemma script_no_click (i : Input) (s : Session) :
  click i = None -> exists ui, script i s = Normal tt s ui.
Proof.
  intros Hc. unfold script.
  destruct (pass_no_click i s Hc) as [ui ->]. eauto.
Qed.

(** After a handler called [st.rerun()], the second pass keeps its session. *)
Lemma script_after_rerun (i : Input) (s s1 : Session) :
  pass i s = RerunRequested s1 ->
  exists ui, script i s = Normal tt s1 ui.
Proof.
  intros H. unfold script. rewrite H.
  apply pass_no_click. reflexivity.
Qed.

Lemma script_show (i : Input) (s : Session) :
  chart_displayed s = false -> click i = Some ShowChart ->
  session_of (script i s) = session_of (show i s).
Proof.
  intros Hd Hc.
  assert (H : pass i s = show i s).
  { unfold_script. rewrite Hd. cbn. rewrite Hc. reflexivity. }
  rewrite show_run in H |- *.
  destruct (script_after_rerun _ _ _ H) as [ui ->]. reflexivity.
Qed.

Arguments truthy_str : simpl never.
Arguments value_is : simpl never.

Ltac case_step :=
  match goal with
  | |- context [truthy_str ?v] => destruct (truthy_str v) eqn:?
  | |- context [value_is ?v ?t] => destruct (value_is v t) eqn:?
  | |- context [truthy_float ?v] => destruct (truthy_float v) eqn:?
  end; cbn.

(** The session an execution leaves, by the button pressed: a press counts only
    where the script draws that button. *)
Lemma script_session (i : Input) (s : Session) :
  session_of (script i s) =
  match click i with
  | Some ShowChart =>
      if chart_displayed s then s else session_of (show i s)
  | Some IAnswered =>
      if chart_displayed s && truthy_str (selected_chart s) && negb (answered s)
      then session_of (markAnswered i s) else s
  | Some GoBack =>
      if chart_displayed s && truthy_str (selected_chart s) && answered s
      then default_session else s
  | None => s
  end.
Proof.
  destruct i as [[[| |]|] t d], s as [[st|] cd sc an [e|]];
    unfold_script; cbn; destruct cd, an; cbn; repeat case_step; reflexivity.
Qed.

Lemma script_answer (i : Input) (s : Session) :
  Showing s -> click i = Some IAnswered ->
  session_of (script i s) = session_of (markAnswered i s).
Proof.
  intros (Hd & Hc & Ha) Hi.
  rewrite script_session, Hi, Hd, Hc, Ha. reflexivity.
Qed.

Lemma script_never_raises (i : Input) (s : Session) : raises (script i s) = false.
Proof.
  destruct i as [[[| |]|] t d], s as [[st|] cd sc an [e|]];
    unfold_script; cbn; destruct cd, an; cbn; repeat case_step; reflexivity.
Qed.

Lemma script_answer_ui (i : Input) (s : Session) :
  Showing s -> click i = Some IAnswered ->
  incl (ui_of (markAnswered i s)) (ui_of (script i s)).
Proof.
  intros (Hd & Hc & Ha) Hi.
  destruct i as [w t d], s as [[st|] cd sc an [e|]]; cbn in Hd, Hc, Ha, Hi; subst;
    unfold_script; cbn; rewrite Hc; cbn; repeat case_step;
    intros x Hx; simpl in Hx |- *; tauto.
Qed.

Lemma script_go_back (i : Input) (s : Session) :
  Answered s -> click i = Some GoBack ->
  script i s = Normal tt default_session [Button ShowChart].
Proof.
  intros (Hd & Hc & Ha) Hi.
  destruct i as [w t d], s as [[st|] cd sc an [e|]]; cbn in Hd, Hc, Ha, Hi; subst;
    unfold_script; cbn; rewrite Hc; cbn; repeat case_step; reflexivity.
Qed.

Lemma markAnswered_never_raises (i : Input) (s : Session) :
  raises (markAnswered i s) = false.
Proof.
  destruct s as [[t|] cd sc an el]; unfold_script; cbn; repeat case_step; reflexivity.
Qed.

Lemma markAnswered_sets_answered (i : Input) (s : Session) :
  answered (session_of (markAnswered i s)) = true.
Proof.
  destruct s as [[t|] cd sc an el]; unfold_script; cbn; repeat case_step; reflexivity.
Qed.

(** ** Reachable sessions *)

Lemma shape_script (i : Input) (s : Session) :
  session_shape s -> session_shape (session_of (script i s)).
Proof.
  intros Hs. rewrite script_session.
  destruct (click i) as [[| |]|]; [ | | | exact Hs].
  - destruct Hs; cbn; try (constructor; assumption).
    apply shape_showing, random_choice_in_charts.
  - destruct Hs as [|t c Hc|t c e Hc Ht|t c Hc Ht]; cbn [chart_displayed selected_chart answered];
      rewrite ?(charts_truthy _ Hc); cbn [andb negb]; try (constructor; assumption).
    destruct (truthy_float t) eqn:Ht.
    + rewrite (markAnswered_timed i (mkSession (Some t) true (Some c) false None) t eq_refl Ht).
      cbn. now constructor.
    + rewrite markAnswered_untimed by exact Ht. cbn. now constructor.
  - destruct Hs as [|t c Hc|t c e Hc Ht|t c Hc Ht]; cbn [chart_displayed selected_chart answered];
      rewrite ?(charts_truthy _ Hc); cbn [andb negb]; constructor; assumption.
Qed.

Lemma reachable_shape (s : Session) : reachable s -> session_shape s.
Proof.
  induction 1 as [|i s _ IH]; [constructor | apply shape_script, IH].
Qed.

Lemma run_inputs_snoc (l : list Input) (i : Input) :
  run_inputs (l ++ [i]) = session_of (script i (run_inputs l)).
Proof.
  unfold run_inputs. rewrite fold_left_app. reflexivity.
Qed.

Lemma run_inputs_reachable (l : list Input) : reachable (run_inputs l).
Proof.
  induction l as [|i l IH] using rev_ind.
  - constructor.
  - rewrite run_inputs_snoc. constructor. exact IH.
Qed.

Lemma reachable_run_inputs (s : Session) :
  reachable s -> exists l, run_inputs l = s.
Proof.
  induction 1 as [|i s _ [l IH]].
  - exists []. reflexivity.
  - exists (l ++ [i]). rewrite run_inputs_snoc, IH. reflexivity.
Qed.

(** ** The generator outputs and the chart [show] stores *)

Lemma random_choice_even (k : nat) : random_choice charts (2 * k) = "chart1".
Proof.
  unfold random_choice, randbelow, charts. cbn [List.length].
  rewrite Nat.mul_comm, Nat.Div0.mod_mul. reflexivity.
Qed.

Lemma random_choice_odd (k : nat) : random_choice charts (2 * k + 1) = "chart2".
Proof.
  unfold random_choice, randbelow, charts. cbn [List.length].
  rewrite Nat.add_comm, Nat.mul_comm, Nat.Div0.mod_add. reflexivity.
Qed.

Lemma draws_selecting_step (t : float) (s : Session) (k : nat) (c : string) :
  draws_selecting t s (2 * S k) c =
  draws_selecting t s (2 * k) c +
  ((if String.eqb "chart1" c then 1 else 0) + (if String.eqb "chart2" c then 1 else 0)).
Proof.
  unfold draws_selecting.
  replace (2 * S k) with (2 * k + 2) by lia.
  rewrite seq_app, filter_app, length_app. f_equal.
  cbn [List.seq Nat.add filter]. rewrite !show_run.
  cbn [session_of selected_chart draw value_is].
  replace (S (2 * k)) with (2 * k + 1) by lia.
  rewrite random_choice_even, random_choice_odd. unfold value_is.
  destruct (String.eqb "chart1" c), (String.eqb "chart2" c); reflexivity.
Qed.

Lemma draws_selecting_even (t : float) (s : Session) (k : nat) (c : string) :
  In c charts -> draws_selecting t s (2 * k) c = k.
Proof.
  intros Hc. induction k as [|k IH]; [reflexivity|].
  rewrite draws_selecting_step, IH.
  destruct Hc as [<-|[<-|[]]]; cbn; lia.
Qed.

Lemma draws_selecting_other (t : float) (s : Session) (n : nat) (c : string) :
  c <> "chart1" -> c <> "chart2" -> draws_selecting t s n c = 0.
Proof.
  intros H1 H2. unfold draws_selecting.
  generalize (List.seq 0 n) as l.
  induction l as [|d l IH]; [reflexivity|].
  cbn [filter]. rewrite show_run. cbn [session_of selected_chart draw value_is].
  destruct (random_choice_charts d) as [E|E]; rewrite E; unfold value_is at 1.
  - destruct (String.eqb_spec "chart1" c) as [Ec|_]; [now contradiction H1 | exact IH].
  - destruct (String.eqb_spec "chart2" c) as [Ec|_]; [now contradiction H2 | exact IH].
Qed.

(** * The claims *)

(** X15: the show / answer / reset cycle from the fresh session, for a clock reading
    [t] that Python takes for true: the chart is shown with [start_time = t]
    and one of the two charts, the answer records [t' - t], and "Go Back"
    restores the fresh session. *)
Lemma show_answer_reset_cycle (t t' t'' : float) (d d' d'' : nat) :
  truthy_float t = true ->
  let s1 := session_of (script (mkInput (Some ShowChart) t d) default_session) in
  let s2 := session_of (script (mkInput (Some IAnswered) t' d') s1) in
  let s3 := session_of (script (mkInput (Some GoBack) t'' d'') s2) in
  Showing s1 /\ start_time s1 = Some t /\
  (selected_chart s1 = Some "chart1" \/ selected_chart s1 = Some "chart2") /\
  Answered s2 /\ elapsed_time s2 = Some (t' - t)%float /\
  s3 = default_session /\ Idle s3.
Proof.
  intros Ht s1 s2 s3.
  assert (E1 : s1 = mkSession (Some t) true (Some (random_choice charts d)) false None).
  { unfold s1. rewrite script_session. reflexivity. }
  assert (Hc : truthy_str (Some (random_choice charts d)) = true)
    by apply charts_truthy, random_choice_in_charts.
  assert (E2 : s2 = mkSession (Some t) true (Some (random_choice charts d)) true
                      (Some (t' - t)%float)).
  { unfold s2. rewrite script_session, E1. cbn [click chart_displayed selected_chart answered].
    rewrite Hc. cbn [andb negb].
    rewrite (markAnswered_timed _ (mkSession (Some t) true _ false None) t eq_refl Ht).
    reflexivity. }
  assert (E3 : s3 = default_session).
  { unfold s3. rewrite script_session, E2. cbn [click chart_displayed selected_chart answered].
    rewrite Hc. reflexivity. }
  rewrite E3, E2, E1. unfold Showing, Answered, Idle.
  cbn [start_time chart_displayed selected_chart answered elapsed_time default_session].
  repeat split; auto.
  destruct (random_choice_charts d) as [H|H]; rewrite H; auto.
Qed.

(** C1, at the clock reading 0.0: [show()] stores [start_time = 0.0] and the
    session is [Showing]; [markAnswered()] at 103.5 then draws "Start time not
    recorded" and records no elapsed time (the claim says it records
    [103.5 - 0.0]); the session is [Answered]. *)
Theorem C1_start_time_zero_is_not_timed :
  let s1 := session_of (script (mkInput (Some ShowChart) 0 0) default_session) in
  let o2 := script (mkInput (Some IAnswered) 103.5 0) s1 in
  Showing s1 /\ start_time s1 = Some 0%float /\
  Answered (session_of o2) /\ elapsed_time (session_of o2) = None /\
  In (ErrorMsg "Start time not recorded. Please try again.") (ui_of o2).
Proof.
  unfold Showing, Answered. vm_compute. repeat split; auto 10.
Qed.

(** C2: in every reachable session [selected_chart] is not [None] exactly when
    [chart_displayed] is true, and [show], [markAnswered], [reset] and a whole
    execution of the script keep that equivalence. *)
Theorem C2_chart_invariant :
  (forall s, reachable s -> chart_invariant s) /\
  (forall i s, chart_invariant s ->
     chart_invariant (session_of (show i s)) /\
     chart_invariant (session_of (markAnswered i s)) /\
     chart_invariant (session_of (reset s)) /\
     chart_invariant (session_of (script i s))).
Proof.
  assert (Hshow : forall i s, chart_invariant (session_of (show i s))).
  { intros i s. rewrite show_run. unfold chart_invariant. cbn.
    split; [reflexivity | discriminate]. }
  assert (Hmark : forall i s, chart_invariant s ->
                              chart_invariant (session_of (markAnswered i s))).
  { intros i [st cd sc an el] H. unfold chart_invariant in *.
    unfold_script. cbn in *. destruct st as [t|]; cbn; repeat case_step; exact H. }
  assert (Hreset : forall s, chart_invariant (session_of (reset s))).
  { intros s. rewrite reset_run. unfold chart_invariant. cbn.
    split; [contradiction | discriminate]. }
  split.
  - intros s Hs. apply reachable_shape in Hs.
    destruct Hs; unfold chart_invariant; cbn;
      (split; [try reflexivity; try contradiction | try discriminate]).
  - intros i s H.
    split; [apply Hshow|]. split; [apply Hmark, H|]. split; [apply Hreset|].
    rewrite script_session.
    destruct (click i) as [[| |]|];
      repeat match goal with
        | |- context [if ?b then _ else _] => destruct b
        end;
      try exact H; try apply Hshow; try (apply Hmark, H).
    unfold chart_invariant; cbn. split; [contradiction | discriminate].
Qed.

(** C3: [markAnswered()] never raises and always leaves [answered = True].
    In a [Showing] session whose [start_time] is [None] it draws the error
    message, writes no [elapsed_time], and the session becomes [Answered];
    so does the execution of the script that handles the press. *)
Theorem C3_missing_start_time (i : Input) (s : Session) :
  (raises (markAnswered i s) = false /\
   answered (session_of (markAnswered i s)) = true) /\
  (start_time s = None -> Showing s ->
   markAnswered i s =
     Normal tt (set_answered true s)
       [ErrorMsg "Start time not recorded. Please try again."] /\
   elapsed_time (session_of (markAnswered i s)) = elapsed_time s /\
   Answered (session_of (markAnswered i s)) /\
   (click i = Some IAnswered ->
    raises (script i s) = false /\
    session_of (script i s) = set_answered true s /\
    In (ErrorMsg "Start time not recorded. Please try again.") (ui_of (script i s)))).
Proof.
  split.
  - split; [apply markAnswered_never_raises | apply markAnswered_sets_answered].
  - intros Hst Hsh.
    assert (E : markAnswered i s =
                Normal tt (set_answered true s)
                  [ErrorMsg "Start time not recorded. Please try again."]).
    { apply markAnswered_untimed. rewrite Hst. reflexivity. }
    rewrite E. cbn [session_of].
    destruct Hsh as (Hd & Hc & Ha).
    repeat split; auto.
    + apply script_never_raises.
    + rewrite script_session, H, Hd, Hc, Ha, E. reflexivity.
    + apply (script_answer_ui i s (conj Hd (conj Hc Ha)) H).
      rewrite E. simpl. auto.
Qed.

(** A [Showing] session without start time (the defensive case) on which
    C3 is exercised. *)
Lemma C3_missing_start_time_witness :
  let i := mkInput (Some IAnswered) 103.5 0 in
  let s := mkSession None true (Some "chart1") false None in
  session_of (script i s) = mkSession None true (Some "chart1") true None /\
  In (ErrorMsg "Start time not recorded. Please try again.") (ui_of (script i s)).
Proof.
  intros i s.
  destruct (C3_missing_start_time i s) as [_ H].
  destruct (H eq_refl (conj eq_refl (conj eq_refl eq_refl))) as (_ & _ & _ & H').
  destruct (H' eq_refl) as (_ & H1 & H2).
  split; [exact H1 | exact H2].
Defined.

(** C4 as stated fails when the primary read and the fallback load both raise:
    the exception of [sns.load_dataset] leaves [load_data]. *)
Lemma C4_fallback_failure_propagates :
  let unreachable := mkPyException true "connection refused" in
  let offline := mkPyException true "URLError" in
  load_data (Throws unreachable) (Throws offline) =
    Propagated offline
      [WarningNotice "Error loading Google Sheet. Falling back to Seaborn's Titanic dataset.";
       WarningNotice "**Error details**: connection refused"] /\
  ~ (exists data notices,
       load_data (Throws unreachable) (Throws offline) = Data data notices).
Proof.
  split; [reflexivity|].
  intros (data & notices & H). discriminate H.
Qed.

(** C4, amended: when the primary read returns, [load_data] returns its data
    with the success notice; when the primary read raises an [Exception] and
    the fallback load returns, [load_data] returns the fallback data with two
    warnings and no success notice; an exception of the fallback load, and a
    primary exception that is not an [Exception], leave [load_data]. *)
Theorem C4_load_data_falls_back :
  (forall data fallback,
     load_data (Returns data) fallback =
       Data data [SuccessNotice "Data successfully loaded from Google Sheet using secrets!"]) /\
  (forall e data, is_Exception e = true ->
     load_data (Throws e) (Returns data) =
       Data data
         [WarningNotice "Error loading Google Sheet. Falling back to Seaborn's Titanic dataset.";
          WarningNotice ("**Error details**: " ++ message e)]) /\
  (forall e e', is_Exception e = true ->
     exists notices, load_data (Throws e) (Throws e') = Propagated e' notices) /\
  (forall e fallback, is_Exception e = false ->
     load_data (Throws e) fallback = Propagated e []).
Proof.
  repeat split.
  - intros e data He. unfold load_data. rewrite He. reflexivity.
  - intros e e' He. unfold load_data. rewrite He. eauto.
  - intros e fallback He. unfold load_data. rewrite He. reflexivity.
Qed.

(** The primary read is refused and the fallback load delivers one row. *)
Lemma C4_load_data_falls_back_witness :
  load_data (Throws (mkPyException true "connection refused"))
            (Returns [mkPassenger 1 "female" 1]) =
  Data [mkPassenger 1 "female" 1]
    [WarningNotice "Error loading Google Sheet. Falling back to Seaborn's Titanic dataset.";
     WarningNotice "**Error details**: connection refused"].
Proof.
  apply (proj1 (proj2 C4_load_data_falls_back)
           (mkPyException true "connection refused") [mkPassenger 1 "female" 1]).
  reflexivity.
Defined.

(** C5: [reset()] leaves the default session whatever the session was, and an
    execution that handles "Go Back" in an [Answered] session ends in the
    default session with the "Show a chart" button drawn. *)
Theorem C5_reset_restores_defaults (i : Input) (s : Session) :
  (session_of (reset s) = default_session /\
   start_time (session_of (reset s)) = None /\
   selected_chart (session_of (reset s)) = None /\
   elapsed_time (session_of (reset s)) = None /\
   chart_displayed (session_of (reset s)) = false /\
   answered (session_of (reset s)) = false) /\
  (Answered s -> click i = Some GoBack ->
   script i s = Normal tt default_session [Button ShowChart] /\
   Idle (session_of (script i s))).
Proof.
  rewrite reset_run. cbn. repeat split; auto.
  - apply script_go_back; assumption.
  - rewrite script_go_back by assumption. reflexivity.
Qed.

(** An [Answered] session with a recorded time, reset by "Go Back". *)
Lemma C5_reset_restores_defaults_witness :
  script (mkInput (Some GoBack) 110 0)
         (mkSession (Some 100%float) true (Some "chart2") true (Some 3.5%float)) =
  Normal tt default_session [Button ShowChart].
Proof.
  apply (C5_reset_restores_defaults
           (mkInput (Some GoBack) 110 0)
           (mkSession (Some 100%float) true (Some "chart2") true (Some 3.5%float))).
  - repeat split.
  - reflexivity.
Defined.

(** C6 as stated fails when the wall clock is set back between the two
    presses: shown at 100.0 and answered at 50.0, the recorded time is -50.0. *)
Lemma C6_clock_set_back_negative_elapsed :
  let l := [mkInput (Some ShowChart) 100 0; mkInput (Some IAnswered) 50 0] in
  elapsed_time (run_inputs l) = Some (-50)%float /\
  (0 <=? -50)%float = false /\
  (-50 <? 0)%float = true.
Proof.
  vm_compute. repeat split.
Qed.

(** C6, amended: an [elapsed_time] present after any sequence of executions
    was written by the execution that handled an "I answered" press in a
    [Showing] session; it is the binary64 difference of that execution's
    clock reading and the stored [start_time], which is still the session's
    [start_time]; it is not negative when both are numbers and the reading is
    not below the start time. *)
Theorem C6_elapsed_is_reading_minus_start (l : list Input) (e : float) :
  elapsed_time (run_inputs l) = Some e ->
  exists pre i post st,
    l = pre ++ i :: post /\
    click i = Some IAnswered /\
    Showing (run_inputs pre) /\
    start_time (run_inputs pre) = Some st /\
    start_time (run_inputs l) = Some st /\
    e = (now i - st)%float /\
    (is_finite st = true -> is_finite (now i) = true ->
     (st <=? now i)%float = true -> (0 <=? e)%float = true).
Proof.
  revert e. induction l as [|i l IH] using rev_ind; intros e H.
  - discriminate H.
  - assert (Keep : run_inputs (l ++ [i]) = run_inputs l ->
                   exists pre i0 post st,
                     l ++ [i] = pre ++ i0 :: post /\
                     click i0 = Some IAnswered /\
                     Showing (run_inputs pre) /\
                     start_time (run_inputs pre) = Some st /\
                     start_time (run_inputs (l ++ [i])) = Some st /\
                     e = (now i0 - st)%float /\
                     (is_finite st = true -> is_finite (now i0) = true ->
                      (st <=? now i0)%float = true -> (0 <=? e)%float = true)).
    { intros E. rewrite E in H |- *.
      destruct (IH e H) as (pre & i0 & post & st & -> & R).
      exists pre, i0, (post ++ [i]), st.
      split; [now rewrite <- app_assoc | exact R]. }
    pose proof (reachable_shape _ (run_inputs_reachable l)) as Hs.
    rewrite run_inputs_snoc in H, Keep |- *.
    rewrite script_session in H, Keep |- *.
    remember (run_inputs l) as s eqn:Es.
    destruct (click i) as [[| |]|] eqn:Hi.
    + destruct Hs; cbn in H, Keep |- *; try (apply Keep; reflexivity).
      discriminate H.
    + destruct Hs as [|t c Hc|t c e0 Hc Ht|t c Hc Ht];
        cbn [chart_displayed selected_chart answered] in H, Keep |- *;
        rewrite ?(charts_truthy _ Hc) in H, Keep |- *;
        cbn [andb negb] in H, Keep |- *;
        try (apply Keep; reflexivity).
      destruct (truthy_float t) eqn:Ht.
      * rewrite (markAnswered_timed i (mkSession (Some t) true (Some c) false None)
                   t eq_refl Ht) in H |- *.
        cbn in H |- *. injection H as <-.
        exists l, i, [], t. rewrite <- Es.
        repeat split; auto.
        -- apply charts_truthy, Hc.
        -- intros F1 F2 Hle. apply float_sub_nonneg; assumption.
      * rewrite markAnswered_untimed in H by exact Ht. discriminate H.
    + destruct Hs as [|t c Hc|t c e0 Hc Ht|t c Hc Ht];
        cbn [chart_displayed selected_chart answered] in H, Keep |- *;
        rewrite ?(charts_truthy _ Hc) in H, Keep |- *;
        cbn [andb negb] in H, Keep |- *;
        try (apply Keep; reflexivity); discriminate H.
    + apply Keep. reflexivity.
Qed.

(** The scenario of the specification: shown at 100.0, answered at 103.5. *)
Lemma C6_elapsed_is_reading_minus_start_witness :
  exists pre i post st,
    [mkInput (Some ShowChart) 100 0; mkInput (Some IAnswered) 103.5 7] =
      pre ++ i :: post /\
    click i = Some IAnswered /\
    Showing (run_inputs pre) /\
    start_time (run_inputs pre) = Some st /\
    start_time (run_inputs [mkInput (Some ShowChart) 100 0;
                            mkInput (Some IAnswered) 103.5 7]) = Some st /\
    3.5%float = (now i - st)%float /\
    (is_finite st = true -> is_finite (now i) = true ->
     (st <=? now i)%float = true -> (0 <=? 3.5)%float = true).
Proof.
  apply (C6_elapsed_is_reading_minus_start
           [mkInput (Some ShowChart) 100 0; mkInput (Some IAnswered) 103.5 7]
           3.5%float).
  reflexivity.
Defined.

(** C7: in every reachable session [elapsed_time] is present only if
    [answered] is true; [markAnswered] and [reset] keep that, and [reset]
    removes [elapsed_time] together with clearing [answered]. *)
Theorem C7_elapsed_only_when_answered :
  (forall s, reachable s -> elapsed_invariant s) /\
  (forall i s, elapsed_invariant s ->
     elapsed_invariant (session_of (markAnswered i s)) /\
     elapsed_invariant (session_of (reset s)) /\
     elapsed_invariant (session_of (script i s))) /\
  (forall s, elapsed_time (session_of (reset s)) = None /\
             answered (session_of (reset s)) = false).
Proof.
  assert (Hmark : forall i s, elapsed_invariant (session_of (markAnswered i s))).
  { intros i s _. apply markAnswered_sets_answered. }
  assert (Hreset : forall s, elapsed_invariant (session_of (reset s))).
  { intros s. rewrite reset_run. intros H. exfalso. apply H. reflexivity. }
  repeat split.
  - intros s Hs. apply reachable_shape in Hs.
    destruct Hs; intros E; cbn in *; congruence.
  - apply Hmark.
  - apply Hreset.
  - rewrite script_session.
    destruct (click i) as [[| |]|];
      repeat match goal with
        | |- context [if ?b then _ else _] => destruct b eqn:?
        end;
      try assumption; try apply Hmark; try (intros E; exfalso; apply E; reflexivity).
  - rewrite reset_run. reflexivity.
  - rewrite reset_run. reflexivity.
Qed.

(** C8: [show()] stores [random.choice(['chart1', 'chart2'])]: whatever the
    generator's output, the stored chart is "chart1" or "chart2", two different
    identifiers.  Among the generator outputs below [2 * k], exactly [k] make
    [show] store "chart1" and exactly [k] make it store "chart2", so with
    equally likely outputs each chart has probability 1/2; no output makes it
    store anything else. *)
Theorem C8_uniform_choice :
  (forall i s,
     selected_chart (session_of (show i s)) = Some (random_choice charts (draw i))) /\
  (forall d, random_choice charts d = "chart1" \/ random_choice charts d = "chart2") /\
  "chart1" <> "chart2" /\
  (forall t s k,
     draws_selecting t s (2 * k) "chart1" = k /\
     draws_selecting t s (2 * k) "chart2" = k) /\
  (forall t s k, 0 < k ->
     Qeq (selection_probability t s (2 * k) "chart1") (Qmake 1 2) /\
     Qeq (selection_probability t s (2 * k) "chart2") (Qmake 1 2)) /\
  (forall t s n c, c <> "chart1" -> c <> "chart2" -> draws_selecting t s n c = 0).
Proof.
  split; [reflexivity|].
  split; [apply random_choice_charts|].
  split; [discriminate|].
  split; [intros t s k; split; apply draws_selecting_even; simpl; auto|].
  split.
  - intros t s k Hk. unfold selection_probability.
    rewrite !draws_selecting_even by (simpl; auto). unfold Qeq. cbn [Qnum Qden].
    rewrite Z.mul_1_l.
    replace (Z.pos (Pos.of_nat (2 * k))) with (Z.of_nat (2 * k))
      by (destruct k as [|k]; [lia|]; cbn [Nat.mul Nat.add];
          rewrite <- Pos.of_nat_succ, Zpos_P_of_succ_nat; lia).
    split; lia.
  - intros t s n c H1 H2. apply draws_selecting_other; assumption.
Qed.

(** C9: with [start_time = 0.0], [markAnswered()] draws the error message,
    leaves [elapsed_time] unwritten and sets [answered]; so does the execution
    that handles the press in a [Showing] session. *)
Theorem C9_zero_start_time_is_falsy (i : Input) (s : Session) :
  start_time s = Some 0%float ->
  markAnswered i s =
    Normal tt (set_answered true s)
      [ErrorMsg "Start time not recorded. Please try again."] /\
  elapsed_time (session_of (markAnswered i s)) = elapsed_time s /\
  answered (session_of (markAnswered i s)) = true /\
  (Showing s -> click i = Some IAnswered ->
   session_of (script i s) = set_answered true s /\
   In (ErrorMsg "Start time not recorded. Please try again.") (ui_of (script i s))).
Proof.
  intros Hst.
  assert (E : markAnswered i s =
              Normal tt (set_answered true s)
                [ErrorMsg "Start time not recorded. Please try again."]).
  { apply markAnswered_untimed. rewrite Hst. reflexivity. }
  rewrite E. cbn [session_of]. repeat split; auto.
  - destruct H as (Hd & Hc & Ha).
    rewrite script_session, H0, Hd, Hc, Ha, E. reflexivity.
  - apply (script_answer_ui i s H H0). rewrite E. simpl. auto.
Qed.

(** The session shown at clock reading 0.0, answered at 103.5. *)
Lemma C9_zero_start_time_is_falsy_witness :
  markAnswered (mkInput (Some IAnswered) 103.5 0)
               (mkSession (Some 0%float) true (Some "chart1") false None) =
  Normal tt (mkSession (Some 0%float) true (Some "chart1") true None)
    [ErrorMsg "Start time not recorded. Please try again."].
Proof.
  apply (C9_zero_start_time_is_falsy
           (mkInput (Some IAnswered) 103.5 0)
           (mkSession (Some 0%float) true (Some "chart1") false None)).
  reflexivity.
Defined.

(** C10: [markAnswered()] leaves [start_time], [selected_chart] and
    [chart_displayed] as they were, on both branches; so does the execution
    that handles the press in a [Showing] session. *)
Theorem C10_markAnswered_frame (i : Input) (s : Session) :
  (start_time (session_of (markAnswered i s)) = start_time s /\
   selected_chart (session_of (markAnswered i s)) = selected_chart s /\
   chart_displayed (session_of (markAnswered i s)) = chart_displayed s) /\
  (Showing s -> click i = Some IAnswered ->
   start_time (session_of (script i s)) = start_time s /\
   selected_chart (session_of (script i s)) = selected_chart s /\
   chart_displayed (session_of (script i s)) = chart_displayed s).
Proof.
  assert (H : start_time (session_of (markAnswered i s)) = start_time s /\
              selected_chart (session_of (markAnswered i s)) = selected_chart s /\
              chart_displayed (session_of (markAnswered i s)) = chart_displayed s).
  { destruct s as [[t|] cd sc an el]; unfold_script; cbn; repeat case_step; auto. }
  split; [exact H|].
  intros Hs Hi.
  rewrite (script_answer i s Hs Hi). exact H.
Qed.

(** A [Showing] session answered on the normal branch and one answered on the
    branch without start time. *)
Lemma C10_markAnswered_frame_witness :
  start_time (session_of (script (mkInput (Some IAnswered) 103.5 0)
     (mkSession (Some 100%float) true (Some "chart2") false None))) = Some 100%float /\
  start_time (session_of (script (mkInput (Some IAnswered) 103.5 0)
     (mkSession None true (Some "chart2") false None))) = None.
Proof.
  split.
  - apply (C10_markAnswered_frame (mkInput (Some IAnswered) 103.5 0)
             (mkSession (Some 100%float) true (Some "chart2") false None));
      [repeat split | reflexivity].
  - apply (C10_markAnswered_frame (mkInput (Some IAnswered) 103.5 0)
             (mkSession None true (Some "chart2") false None));
      [repeat split | reflexivity].
Defined.

(** * Further properties of the script *)

Arguments random_choice : simpl never.

Lemma markAnswered_keeps_chart (i : Input) (s : Session) :
  start_time (session_of (markAnswered i s)) = start_time s /\
  selected_chart (session_of (markAnswered i s)) = selected_chart s /\
  chart_displayed (session_of (markAnswered i s)) = chart_displayed s.
Proof.
  destruct s as [[t|] cd sc an el]; unfold_script; cbn; repeat case_step; auto.
Qed.

(** [script] never ends with a rerun left pending or with an exception of a
    handler: the pass that [st.rerun()] starts never calls [st.rerun()] again
    and line 137 never subtracts [None]. *)
Lemma script_completes (i : Input) (s : Session) :
  exists s' ui, script i s = Normal tt s' ui.
Proof.
  destruct i as [[[| |]|] t d], s as [[st|] cd sc an [e|]];
    unfold_script; cbn; destruct cd, an; cbn; repeat case_step; eauto.
Qed.

(** X2: a press changes the session only in the state that draws its button:
    "Show a chart" only when no chart is displayed, "I answered your question"
    only in a [Showing] session, "Go Back" only in an [Answered] session. *)
Theorem press_effective_only_in_its_state (i : Input) (s : Session) :
  session_of (script i s) <> s ->
  (click i = Some ShowChart /\ Idle s) \/
  (click i = Some IAnswered /\ Showing s) \/
  (click i = Some GoBack /\ Answered s).
Proof.
  rewrite script_session. unfold Idle, Showing, Answered.
  destruct (click i) as [[| |]|]; destruct (chart_displayed s);
    destruct (truthy_str (selected_chart s)); destruct (answered s);
    cbn [andb negb]; intros H; try (now contradiction H); auto 10.
Qed.

Lemma press_effective_only_in_its_state_witness :
  (click (mkInput (Some ShowChart) 100 0) = Some ShowChart /\ Idle default_session) \/
  (click (mkInput (Some ShowChart) 100 0) = Some IAnswered /\ Showing default_session) \/
  (click (mkInput (Some ShowChart) 100 0) = Some GoBack /\ Answered default_session).
Proof.
  apply (press_effective_only_in_its_state (mkInput (Some ShowChart) 100 0) default_session).
  vm_compute. discriminate.
Defined.

(** X3: pressing the same button in two executions in a row is the same as
    pressing it once, whatever the clock and the generator give the second
    time: the chart is not drawn again and the time is not measured again. *)
Theorem repeated_press_changes_nothing (i i' : Input) (s : Session) :
  click i' = click i ->
  session_of (script i' (session_of (script i s))) = session_of (script i s).
Proof.
  intros Hc.
  rewrite (script_session i' (session_of (script i s))), Hc.
  rewrite (script_session i s).
  destruct (markAnswered_keeps_chart i s) as (_ & Hsel & Hdis).
  pose proof (markAnswered_sets_answered i s) as Hans.
  destruct (click i) as [[| |]|]; [ | | | reflexivity].
  - destruct (chart_displayed s) eqn:Hd.
    + rewrite Hd. reflexivity.
    + rewrite show_run. reflexivity.
  - destruct (chart_displayed s && truthy_str (selected_chart s) && negb (answered s)) eqn:E.
    + rewrite Hdis, Hsel, Hans. cbn [negb]. rewrite andb_false_r. reflexivity.
    + rewrite E. reflexivity.
  - destruct (chart_displayed s && truthy_str (selected_chart s) && answered s) eqn:E.
    + reflexivity.
    + rewrite E. reflexivity.
Qed.

Lemma repeated_press_changes_nothing_witness :
  session_of (script (mkInput (Some IAnswered) 200 1)
    (session_of (script (mkInput (Some IAnswered) 103.5 0)
       (mkSession (Some 100%float) true (Some "chart1") false None)))) =
  mkSession (Some 100%float) true (Some "chart1") true (Some 3.5%float).
Proof.
  apply (repeated_press_changes_nothing
           (mkInput (Some IAnswered) 103.5 0) (mkInput (Some IAnswered) 200 1)
           (mkSession (Some 100%float) true (Some "chart1") false None)).
  reflexivity.
Defined.

(** X4: a session with [chart_displayed] true and no chart name ([None] or
    the empty string) is stuck: line 115 hides "Show a chart" and line 125
    skips the whole display block, so every execution draws nothing and leaves
    the session as it is. *)
Theorem displayed_without_chart_is_stuck (i : Input) (s : Session) :
  chart_displayed s = true -> truthy_str (selected_chart s) = false ->
  script i s = Normal tt s [].
Proof.
  intros Hd Hc. destruct s as [st cd sc an el]; cbn in Hd, Hc; subst cd.
  destruct i as [[[| |]|] t d]; unfold_script; cbn; rewrite Hc; reflexivity.
Qed.

Lemma displayed_without_chart_is_stuck_witness :
  script (mkInput (Some GoBack) 100 0) (mkSession (Some 1%float) true None true None) =
  Normal tt (mkSession (Some 1%float) true None true None) [].
Proof.
  apply (displayed_without_chart_is_stuck (mkInput (Some GoBack) 100 0)
           (mkSession (Some 1%float) true None true None)); reflexivity.
Defined.

(** Symbolic execution of the script on the sessions the application reaches. *)
Ltac exec_shape :=
  unfold_script; cbv [value_is truthy_str truthy_time]; cbn.

Ltac on_reachable Hs i :=
  apply reachable_shape in Hs;
  let Hc := fresh "Hc" in
  let E := fresh "E" in
  destruct Hs as [|? ? Hc|? ? ? Hc ?|? ? Hc ?];
  try (destruct Hc as [<-|[<-|[]]]);
  destruct i as [[[| |]|] ? d];
  destruct (random_choice_charts d) as [E|E];
  exec_shape; rewrite ?E; cbn; repeat case_step.

(** X5: what a reachable session looks like.  [start_time] is present exactly
    while a chart is displayed; [answered] is true only while a chart is
    displayed; a session without displayed chart is the fresh session; a
    stored chart name is one of the two of line 118. *)
Theorem reachable_session_form (s : Session) :
  reachable s ->
  (start_time s <> None <-> chart_displayed s = true) /\
  (answered s = true -> chart_displayed s = true) /\
  (chart_displayed s = false -> s = default_session) /\
  (forall c, selected_chart s = Some c -> In c charts).
Proof.
  intros Hs. apply reachable_shape in Hs.
  destruct Hs; cbn; repeat split; intros; try congruence; try discriminate;
    match goal with
    | H : Some _ = Some _ |- _ => injection H as <-; assumption
    end.
Qed.

Lemma reachable_session_form_witness :
  start_time (run_inputs [mkInput (Some ShowChart) 100 1]) <> None <->
  chart_displayed (run_inputs [mkInput (Some ShowChart) 100 1]) = true.
Proof.
  apply (reachable_session_form (run_inputs [mkInput (Some ShowChart) 100 1])).
  apply run_inputs_reachable.
Defined.

(** X6: the message "Start time not recorded" is drawn from a reachable
    session only by the execution that handles "I answered your question" in
    a [Showing] session whose stored start time compares equal to 0.0: the
    case [start_time is None] that the message names never occurs. *)
Theorem error_only_for_zero_start_time (i : Input) (s : Session) (msg : string) :
  reachable s -> In (ErrorMsg msg) (ui_of (script i s)) ->
  click i = Some IAnswered /\ Showing s /\
  exists t, start_time s = Some t /\ (t =? 0)%float = true.
Proof.
  intros Hs. unfold Showing.
  on_reachable Hs i; intros Hin; cbn in Hin;
    repeat match goal with
      | H : _ \/ _ |- _ => destruct H
      | H : False |- _ => contradiction H
      | H : _ = ErrorMsg _ |- _ => try discriminate H; clear H
      end;
    (repeat split; auto);
    match goal with
    | Ht : truthy_float ?t = false |- _ =>
        exists t; split; [reflexivity|];
        unfold truthy_float in Ht; apply negb_false_iff in Ht; exact Ht
    end.
Qed.

Lemma error_only_for_zero_start_time_witness :
  click (mkInput (Some IAnswered) 103.5 0) = Some IAnswered /\
  Showing (run_inputs [mkInput (Some ShowChart) 0 0]) /\
  exists t, start_time (run_inputs [mkInput (Some ShowChart) 0 0]) = Some t /\
            (t =? 0)%float = true.
Proof.
  apply (error_only_for_zero_start_time (mkInput (Some IAnswered) 103.5 0)
           (run_inputs [mkInput (Some ShowChart) 0 0])
           "Start time not recorded. Please try again.").
  - apply run_inputs_reachable.
  - vm_compute. auto 10.
Defined.

(** What [script] draws from a reachable session, that is, what a pass draws
    once the chart function has returned. *)

Arguments success_text : simpl never.

Lemma script_draws_stored_chart (i : Input) (s : Session) :
  reachable s ->
  (forall c, In (Pyplot c) (ui_of (script i s)) ->
             selected_chart (session_of (script i s)) = Some c) /\
  (chart_displayed (session_of (script i s)) = true ->
   exists c, In (Pyplot c) (ui_of (script i s))).
Proof.
  intros Hs.
  on_reachable Hs i;
    (split;
     [ intros c0 Hin; cbn in Hin;
       repeat match goal with
         | H : _ \/ _ |- _ => destruct H
         | H : False |- _ => contradiction H
         | H : Pyplot _ = Pyplot _ |- _ => injection H as <-
         | H : _ = Pyplot _ |- _ => discriminate H
         end; reflexivity
     | intros Hd; try discriminate Hd; eexists; cbn; eauto ]).
Qed.

Lemma script_buttons (i : Input) (s : Session) :
  reachable s ->
  buttons (ui_of (script i s)) =
  if match click i with
     | Some IAnswered => chart_displayed s && negb (answered s)
     | _ => false
     end
  then [IAnswered; GoBack]
  else [offered (session_of (script i s))].
Proof.
  intros Hs. on_reachable Hs i; reflexivity.
Qed.

Lemma script_success_messages (i : Input) (s : Session) :
  reachable s ->
  success_messages (ui_of (script i s)) =
  match elapsed_time (session_of (script i s)) with
  | Some e => [success_text e]
  | None => []
  end.
Proof.
  intros Hs. on_reachable Hs i; reflexivity.
Qed.

Lemma script_answer_then_go_back (s : Session) (t t' : float) (d d' : nat) :
  reachable s ->
  session_of (script (mkInput (Some GoBack) t' d')
                (session_of (script (mkInput (Some IAnswered) t d) s))) =
  default_session.
Proof.
  intros Hs.
  rewrite !script_session. cbn [click].
  apply reachable_shape in Hs.
  destruct Hs as [|t0 c Hc|t0 c e Hc Ht|t0 c Hc Ht];
    cbn [chart_displayed selected_chart answered andb negb];
    rewrite ?(charts_truthy _ Hc); cbn [andb negb]; try reflexivity.
  - destruct (markAnswered_keeps_chart (mkInput (Some IAnswered) t d)
                (mkSession (Some t0) true (Some c) false None)) as (_ & -> & ->).
    rewrite markAnswered_sets_answered. cbn [selected_chart chart_displayed].
    rewrite (charts_truthy _ Hc). reflexivity.
  - cbn. rewrite (charts_truthy _ Hc). reflexivity.
  - cbn. rewrite (charts_truthy _ Hc). reflexivity.
Qed.

(** X11: where the stored start time comes from.  After any sequence of
    executions, a present [start_time] is the clock reading of an execution
    that handled "Show a chart" on the fresh session, and the stored chart is
    the one the generator drew in that same execution. *)
Theorem start_time_is_show_reading (l : list Input) (t : float) :
  start_time (run_inputs l) = Some t ->
  exists pre i post,
    l = pre ++ i :: post /\
    click i = Some ShowChart /\
    run_inputs pre = default_session /\
    now i = t /\
    selected_chart (run_inputs l) = Some (random_choice charts (draw i)).
Proof.
  induction l as [|i l IH] using rev_ind; intros H.
  - discriminate H.
  - pose proof (reachable_shape _ (run_inputs_reachable l)) as Hs.
    rewrite run_inputs_snoc in H |- *.
    assert (Keep : start_time (session_of (script i (run_inputs l))) =
                     start_time (run_inputs l) ->
                   selected_chart (session_of (script i (run_inputs l))) =
                     selected_chart (run_inputs l) ->
                   exists pre i0 post,
                     l ++ [i] = pre ++ i0 :: post /\
                     click i0 = Some ShowChart /\
                     run_inputs pre = default_session /\
                     now i0 = t /\
                     selected_chart (session_of (script i (run_inputs l))) =
                       Some (random_choice charts (draw i0))).
    { intros E1 E2. rewrite E1 in H. rewrite E2.
      destruct (IH H) as (pre & i0 & post & -> & R).
      exists pre, i0, (post ++ [i]).
      split; [now rewrite <- app_assoc | exact R]. }
    rewrite script_session in H, Keep |- *.
    destruct (markAnswered_keeps_chart i (run_inputs l)) as (Mst & Msel & _).
    destruct (click i) as [[| |]|] eqn:Hi.
    + destruct (chart_displayed (run_inputs l)) eqn:Hd; [now apply Keep|].
      exists l, i, [].
      rewrite show_run in H |- *. cbn in H |- *. injection H as <-.
      repeat split; auto.
      destruct Hs; try discriminate Hd; reflexivity.
    + destruct (_ && _ && _); now apply Keep.
    + destruct (_ && _ && _); [discriminate H | now apply Keep].
    + now apply Keep.
Qed.

Lemma start_time_is_show_reading_witness :
  exists pre i post,
    [mkInput (Some ShowChart) 100 1; mkInput (Some IAnswered) 103.5 0] =
      pre ++ i :: post /\
    click i = Some ShowChart /\
    run_inputs pre = default_session /\
    now i = 100%float /\
    selected_chart (run_inputs [mkInput (Some ShowChart) 100 1;
                                mkInput (Some IAnswered) 103.5 0]) =
      Some (random_choice charts (draw i)).
Proof.
  apply (start_time_is_show_reading
           [mkInput (Some ShowChart) 100 1; mkInput (Some IAnswered) 103.5 0] 100%float).
  reflexivity.
Defined.

(** * Further properties of the cached loader *)

Lemma load_calls_warm (data : Dataset) (notices : list Notice)
      (calls : list (Call Dataset * Call Dataset)) :
  load_calls (Some (data, notices)) calls = map (fun _ => Data data notices) calls.
Proof.
  induction calls as [|[primary fallback] rest IH]; cbn; [reflexivity|].
  rewrite IH. reflexivity.
Qed.

Lemma cached_load_data_stores (cache : Cache) (primary fallback : Call Dataset)
      (data : Dataset) (notices : list Notice) :
  fst (cached_load_data cache primary fallback) = Data data notices ->
  snd (cached_load_data cache primary fallback) = Some (data, notices).
Proof.
  unfold cached_load_data.
  destruct cache as [[d n]|]; cbn.
  - intros H. injection H as -> ->. reflexivity.
  - destruct (load_data primary fallback); cbn; intros H; [|discriminate H].
    injection H as -> ->. reflexivity.
Qed.

(** X12: once [load_data()] has returned, it returns the same data and draws
    the same notices in every later execution, whatever the two sources do by
    then: a dataset obtained from the fallback, with its two warnings, stays
    in use after the primary source works again. *)
Theorem first_loaded_data_stays (cache : Cache)
        (calls : list (Call Dataset * Call Dataset))
        (j k : nat) (data : Dataset) (notices : list Notice) :
  nth_error (load_calls cache calls) j = Some (Data data notices) ->
  j <= k -> k < List.length calls ->
  nth_error (load_calls cache calls) k = Some (Data data notices).
Proof.
  revert cache j k.
  induction calls as [|[primary fallback] rest IH]; intros cache j k Hj Hjk Hk.
  - cbn in Hk. lia.
  - cbn [load_calls] in Hj |- *.
    pose proof (cached_load_data_stores cache primary fallback) as Hst.
    destruct (cached_load_data cache primary fallback) as [r cache'].
    cbn [fst snd] in Hst.
    destruct j as [|j].
    + cbn in Hj. injection Hj as ->.
      destruct k as [|k]; [reflexivity|].
      cbn [nth_error]. rewrite (Hst data notices eq_refl), load_calls_warm.
      cbn [List.length] in Hk.
      rewrite nth_error_map.
      destruct (nth_error rest k) eqn:E; [reflexivity|].
      apply nth_error_None in E. lia.
    + destruct k as [|k]; [lia|].
      cbn [nth_error] in Hj |- *. cbn [List.length] in Hk.
      apply (IH cache' j k); [exact Hj | lia | lia].
Qed.

Lemma first_loaded_data_stays_witness :
  nth_error
    (load_calls None
       [(Throws (mkPyException true "connection refused"), Returns [mkPassenger 3 "male" 0]);
        (Returns [mkPassenger 1 "female" 1], Returns [])]) 1 =
  Some (Data [mkPassenger 3 "male" 0]
          [WarningNotice "Error loading Google Sheet. Falling back to Seaborn's Titanic dataset.";
           WarningNotice "**Error details**: connection refused"]).
Proof.
  apply (first_loaded_data_stays None
           [(Throws (mkPyException true "connection refused"), Returns [mkPassenger 3 "male" 0]);
            (Returns [mkPassenger 1 "female" 1], Returns [])] 0 1).
  - reflexivity.
  - lia.
  - simpl. lia.
Defined.

(** X13: a failed load is not cached: as long as every earlier execution ended
    with the exception leaving [load_data], the next one runs the body again
    on what the sources do then. *)
Theorem failed_load_is_retried (calls : list (Call Dataset * Call Dataset))
        (k : nat) (primary fallback : Call Dataset) :
  forallb is_propagated (firstn k (load_calls None calls)) = true ->
  nth_error calls k = Some (primary, fallback) ->
  nth_error (load_calls None calls) k = Some (load_data primary fallback).
Proof.
  revert k.
  induction calls as [|[p f] rest IH]; intros k Hall Hk.
  - destruct k; discriminate Hk.
  - cbn [load_calls] in Hall |- *. unfold cached_load_data in Hall |- *.
    destruct k as [|k].
    + cbn in Hk. injection Hk as -> ->.
      destruct (load_data primary fallback); reflexivity.
    + cbn [nth_error] in Hk.
      destruct (load_data p f) as [d n|e n]; cbn in Hall; [discriminate Hall|].
      cbn [nth_error]. apply IH; assumption.
Qed.

Lemma failed_load_is_retried_witness :
  nth_error
    (load_calls None
       [(Throws (mkPyException true "connection refused"),
         Throws (mkPyException true "URLError"));
        (Returns [mkPassenger 1 "female" 1], Returns [])]) 1 =
  Some (load_data (Returns [mkPassenger 1 "female" 1]) (Returns [])).
Proof.
  apply (failed_load_is_retried
           [(Throws (mkPyException true "connection refused"),
             Throws (mkPyException true "URLError"));
            (Returns [mkPassenger 1 "female" 1], Returns [])] 1).
  - reflexivity.
  - reflexivity.
Defined.

(** X14: data returned by [load_data] comes from one of the two sources, and
    the notices say which: either the primary read returned it and the success
    notice was drawn, or the primary read raised an [Exception], the fallback
    load returned it, and the two warnings (the second with the text of the
    primary exception) were drawn. *)
Theorem loaded_data_has_a_source (primary fallback : Call Dataset)
        (data : Dataset) (notices : list Notice) :
  load_data primary fallback = Data data notices ->
  (primary = Returns data /\
   notices = [SuccessNotice "Data successfully loaded from Google Sheet using secrets!"]) \/
  (exists e,
     primary = Throws e /\ is_Exception e = true /\ fallback = Returns data /\
     notices =
       [WarningNotice "Error loading Google Sheet. Falling back to Seaborn's Titanic dataset.";
        WarningNotice ("**Error details**: " ++ message e)]).
Proof.
  unfold load_data. intros H.
  destruct primary as [d|e].
  - injection H as -> <-. left. split; reflexivity.
  - destruct (is_Exception e) eqn:He; [|discriminate H].
    destruct fallback as [d|e']; [|discriminate H].
    injection H as -> <-. right. exists e. repeat split. exact He.
Qed.

Lemma loaded_data_has_a_source_witness :
  (@Throws Dataset (mkPyException true "connection refused") =
     Returns [mkPassenger 3 "male" 0] /\
   [WarningNotice "Error loading Google Sheet. Falling back to Seaborn's Titanic dataset.";
    WarningNotice "**Error details**: connection refused"] =
   [SuccessNotice "Data successfully loaded from Google Sheet using secrets!"]) \/
  (exists e,
     @Throws Dataset (mkPyException true "connection refused") = Throws e /\
     is_Exception e = true /\
     @Returns Dataset [mkPassenger 3 "male" 0] = Returns [mkPassenger 3 "male" 0] /\
     [WarningNotice "Error loading Google Sheet. Falling back to Seaborn's Titanic dataset.";
      WarningNotice "**Error details**: connection refused"] =
     [WarningNotice "Error loading Google Sheet. Falling back to Seaborn's Titanic dataset.";
      WarningNotice ("**Error details**: " ++ message e)]).
Proof.
  apply (loaded_data_has_a_source
           (Throws (mkPyException true "connection refused"))
           (Returns [mkPassenger 3 "male" 0])
           [mkPassenger 3 "male" 0]).
  reflexivity.
Defined.

(** The scenario of the specification, through [show_answer_reset_cycle]:
    shown at 100.0, answered at 103.5, reset at 110.0. *)
Lemma show_answer_reset_cycle_witness :
  let s1 := session_of (script (mkInput (Some ShowChart) 100 1) default_session) in
  let s2 := session_of (script (mkInput (Some IAnswered) 103.5 0) s1) in
  let s3 := session_of (script (mkInput (Some GoBack) 110 0) s2) in
  Showing s1 /\ start_time s1 = Some 100%float /\
  (selected_chart s1 = Some "chart1" \/ selected_chart s1 = Some "chart2") /\
  Answered s2 /\ elapsed_time s2 = Some (103.5 - 100)%float /\
  s3 = default_session /\ Idle s3.
Proof.
  apply (show_answer_reset_cycle 100 103.5 110 1 0 0).
  reflexivity.
Defined.

(** * Executions that call the chart functions *)

(** An execution with the chart functions: it stops at line 129 or 131 when
    the function of the stored chart raises, and is [script] otherwise. *)
Lemma script_with_spec (r : ChartFunctions) (i : Input) (s : Session) :
  script_with r i s =
  if chart_displayed (after_show_press i s)
     && truthy_str (selected_chart (after_show_press i s))
  then
    match chart_call r (selected_chart (after_show_press i s)) with
    | Returns _ => Completed (script i s)
    | Throws e =>
        ChartRaised e (after_show_press i s) [Subheader "Your Randomly Selected Chart"]
    end
  else Completed (script i s).
Proof.
  destruct i as [[[| |]|] t d], s as [[st|] cd sc an [el|]], r as [c1 c2];
    cbv [script_with pass_with after_show_press chart_call chart1 chart2 click];
    unfold_script; cbn; destruct cd, an; cbn; repeat case_step;
    destruct c1, c2; cbn; repeat case_step; reflexivity.
Qed.

Lemma after_show_press_reachable (i : Input) (s : Session) :
  reachable s -> reachable (after_show_press i s).
Proof.
  intros Hs. unfold after_show_press.
  destruct (click i) as [[| |]|] eqn:Hi; try exact Hs.
  destruct (chart_displayed s) eqn:Hd; [exact Hs|].
  replace (session_of (show i s)) with (session_of (script i s))
    by (rewrite script_session, Hi, Hd; reflexivity).
  constructor. exact Hs.
Qed.

(** The sessions reachable when chart functions may raise are among the
    reachable ones. *)
Lemma script_with_reachable (r : ChartFunctions) (i : Input) (s : Session) :
  reachable s -> reachable (session_after (script_with r i s)).
Proof.
  intros Hs. rewrite script_with_spec.
  destruct (chart_displayed (after_show_press i s) && truthy_str (selected_chart (after_show_press i s)));
    [|constructor; exact Hs].
  destruct (chart_call r _); cbn [session_after].
  - constructor. exact Hs.
  - apply after_show_press_reachable, Hs.
Qed.

(** X1: how an execution can end.  Whatever the session, the input and the
    chart functions, it either ends normally or stops at line 129 or 131 with
    the exception that the function of the stored chart raised; it never
    ends in an exception of a handler (line 137 never subtracts [None]) and
    never with a rerun left pending. *)
Theorem execution_ends_normally_or_in_chart_function
        (r : ChartFunctions) (i : Input) (s : Session) :
  (exists s' ui, script_with r i s = Completed (Normal tt s' ui)) \/
  (exists e s' ui,
     script_with r i s = ChartRaised e s' ui /\
     chart_displayed s' = true /\
     chart_call r (selected_chart s') = Throws e).
Proof.
  rewrite script_with_spec.
  destruct (script_completes i s) as (s' & ui & E).
  destruct (chart_displayed (after_show_press i s)) eqn:Hd; cbn [andb];
    [|left; rewrite E; eauto].
  destruct (truthy_str _); [|left; rewrite E; eauto].
  destruct (chart_call r _) as [u|e] eqn:Hc.
  - left. rewrite E. eauto.
  - right. exists e, (after_show_press i s), [Subheader "Your Randomly Selected Chart"].
    auto.
Qed.

(** X7: the chart on the page.  From a reachable session, a chart that an
    execution draws is the chart the session stores afterwards.  When the
    execution ends normally with [chart_displayed] true, the chart is drawn;
    when it stops in the chart function, no chart is drawn. *)
Theorem drawn_chart_is_stored_chart (r : ChartFunctions) (i : Input) (s : Session) :
  reachable s ->
  (forall c, In (Pyplot c) (drawn (script_with r i s)) ->
             selected_chart (session_after (script_with r i s)) = Some c) /\
  match script_with r i s with
  | Completed o =>
      chart_displayed (session_of o) = true -> exists c, In (Pyplot c) (ui_of o)
  | ChartRaised _ _ ui => forall c, ~ In (Pyplot c) ui
  end.
Proof.
  intros Hs. rewrite script_with_spec.
  destruct (script_draws_stored_chart i s Hs) as [H1 H2].
  assert (Hnone : forall c, ~ In (Pyplot c) [Subheader "Your Randomly Selected Chart"]).
  { intros c [H|[]]. discriminate H. }
  destruct (chart_displayed (after_show_press i s) && truthy_str (selected_chart (after_show_press i s)));
    [|split; assumption].
  destruct (chart_call r _); cbn [drawn session_after]; split; try assumption.
  intros c Hin. now apply Hnone in Hin.
Qed.

Lemma drawn_chart_is_stored_chart_witness :
  selected_chart
    (session_after (script_with (mkChartFunctions (Returns tt) (Returns tt))
                      (mkInput (Some IAnswered) 103.5 0)
                      (run_inputs [mkInput (Some ShowChart) 100 1]))) = Some "chart2".
Proof.
  apply (proj1 (drawn_chart_is_stored_chart (mkChartFunctions (Returns tt) (Returns tt))
                  (mkInput (Some IAnswered) 103.5 0)
                  (run_inputs [mkInput (Some ShowChart) 100 1])
                  (run_inputs_reachable [mkInput (Some ShowChart) 100 1]))
               "chart2").
  vm_compute. auto.
Defined.

(** X8: the buttons on the page.  From a reachable session, an execution that
    stops in the chart function draws no button.  One that ends normally
    draws "I answered your question" and "Go Back" below it when it handles
    the answer, and otherwise exactly one button, the one of the state it
    ends in. *)
Theorem buttons_of_execution (r : ChartFunctions) (i : Input) (s : Session) :
  reachable s ->
  match script_with r i s with
  | Completed o =>
      buttons (ui_of o) =
      if match click i with
         | Some IAnswered => chart_displayed s && negb (answered s)
         | _ => false
         end
      then [IAnswered; GoBack]
      else [offered (session_of o)]
  | ChartRaised _ _ ui => buttons ui = []
  end.
Proof.
  intros Hs. rewrite script_with_spec.
  pose proof (script_buttons i s Hs) as H.
  destruct (chart_displayed (after_show_press i s) && truthy_str (selected_chart (after_show_press i s)));
    [|exact H].
  destruct (chart_call r _); [exact H | reflexivity].
Qed.

Lemma buttons_of_execution_witness :
  buttons (drawn (script_with (mkChartFunctions (Returns tt) (Returns tt))
                    (mkInput (Some IAnswered) 103.5 0)
                    (run_inputs [mkInput (Some ShowChart) 100 1]))) = [IAnswered; GoBack] /\
  buttons (drawn (script_with
                    (mkChartFunctions (Returns tt) (Throws (mkPyException true "'pclass'")))
                    (mkInput (Some IAnswered) 103.5 0)
                    (run_inputs [mkInput (Some ShowChart) 100 1]))) = [].
Proof.
  split.
  - apply (buttons_of_execution (mkChartFunctions (Returns tt) (Returns tt))
             (mkInput (Some IAnswered) 103.5 0)
             (run_inputs [mkInput (Some ShowChart) 100 1])).
    apply run_inputs_reachable.
  - apply (buttons_of_execution
             (mkChartFunctions (Returns tt) (Throws (mkPyException true "'pclass'")))
             (mkInput (Some IAnswered) 103.5 0)
             (run_inputs [mkInput (Some ShowChart) 100 1])).
    apply run_inputs_reachable.
Defined.

(** The text of line 145 on values that binary64 holds exactly; ties go to the
    even hundredth. *)
Example format_2f_examples :
  format_2f 3.5 = "3.50" /\ format_2f 0.125 = "0.12" /\ format_2f 0.375 = "0.38" /\
  format_2f (-50) = "-50.00" /\ format_2f 0 = "0.00" /\ format_2f 1234.5 = "1234.50".
Proof. vm_compute. repeat split. Qed.

(** X9: the success message.  From a reachable session, an execution that ends
    normally shows exactly one success message, with the stored
    [elapsed_time] written with two decimals, when the session it leaves
    stores one, and none otherwise; an execution that stops in the chart
    function shows none. *)
Theorem success_message_is_formatted_elapsed_time
        (r : ChartFunctions) (i : Input) (s : Session) :
  reachable s ->
  success_messages (drawn (script_with r i s)) =
  match script_with r i s with
  | Completed o =>
      match elapsed_time (session_of o) with
      | Some e => [success_text e]
      | None => []
      end
  | ChartRaised _ _ _ => []
  end.
Proof.
  intros Hs. rewrite script_with_spec.
  pose proof (script_success_messages i s Hs) as H.
  destruct (chart_displayed (after_show_press i s) && truthy_str (selected_chart (after_show_press i s)));
    [|exact H].
  destruct (chart_call r _); [exact H | reflexivity].
Qed.

Lemma success_message_is_formatted_elapsed_time_witness :
  success_messages
    (drawn (script_with (mkChartFunctions (Returns tt) (Returns tt))
              (mkInput (Some IAnswered) 103.5 0)
              (run_inputs [mkInput (Some ShowChart) 100 1]))) =
  ["**It took you 3.50 seconds to answer the question!**"].
Proof.
  apply (success_message_is_formatted_elapsed_time
           (mkChartFunctions (Returns tt) (Returns tt))
           (mkInput (Some IAnswered) 103.5 0)
           (run_inputs [mkInput (Some ShowChart) 100 1])).
  apply run_inputs_reachable.
Defined.

(** X10: the way back to the fresh session.  From a reachable session, an
    execution with "I answered your question" pressed followed by one with
    "Go Back" pressed ends in the fresh session, provided the function of the
    displayed chart returns in both. *)
Theorem fresh_session_within_two_presses
        (r r' : ChartFunctions) (s : Session) (t t' : float) (d d' : nat) :
  reachable s ->
  (chart_displayed s = true -> chart_call r (selected_chart s) = Returns tt) ->
  (chart_displayed s = true -> chart_call r' (selected_chart s) = Returns tt) ->
  session_after
    (script_with r' (mkInput (Some GoBack) t' d')
       (session_after (script_with r (mkInput (Some IAnswered) t d) s))) =
  default_session.
Proof.
  intros Hs Hr Hr'.
  assert (E1 : script_with r (mkInput (Some IAnswered) t d) s =
               Completed (script (mkInput (Some IAnswered) t d) s)).
  { rewrite script_with_spec. cbn [after_show_press click].
    destruct (chart_displayed s) eqn:Hd; cbn [andb]; [|reflexivity].
    rewrite (Hr eq_refl). destruct (truthy_str _); reflexivity. }
  rewrite E1. cbn [session_after].
  set (s1 := session_of (script (mkInput (Some IAnswered) t d) s)).
  assert (Hsel : chart_displayed s1 = true ->
                 chart_displayed s = true /\ selected_chart s1 = selected_chart s).
  { unfold s1. rewrite script_session. cbn [click].
    destruct (markAnswered_keeps_chart (mkInput (Some IAnswered) t d) s) as (_ & Ms & Md).
    destruct (chart_displayed s && truthy_str (selected_chart s) && negb (answered s));
      [rewrite Ms, Md|]; auto. }
  assert (E2 : script_with r' (mkInput (Some GoBack) t' d') s1 =
               Completed (script (mkInput (Some GoBack) t' d') s1)).
  { rewrite script_with_spec. cbn [after_show_press click].
    destruct (chart_displayed s1) eqn:Hd; cbn [andb]; [|reflexivity].
    destruct (Hsel eq_refl) as [Hd0 ->].
    rewrite (Hr' Hd0). destruct (truthy_str _); reflexivity. }
  rewrite E2. cbn [session_after]. unfold s1.
  apply script_answer_then_go_back, Hs.
Qed.

Lemma fresh_session_within_two_presses_witness :
  session_after
    (script_with (mkChartFunctions (Returns tt) (Returns tt))
       (mkInput (Some GoBack) 110 0)
       (session_after
          (script_with (mkChartFunctions (Returns tt) (Returns tt))
             (mkInput (Some IAnswered) 103.5 0)
             (run_inputs [mkInput (Some ShowChart) 100 1])))) =
  default_session.
Proof.
  apply (fresh_session_within_two_presses
           (mkChartFunctions (Returns tt) (Returns tt))
           (mkChartFunctions (Returns tt) (Returns tt))
           (run_inputs [mkInput (Some ShowChart) 100 1]) 103.5 110 0 0).
  - apply run_inputs_reachable.
  - reflexivity.
  - reflexivity.
Defined.

(** X16: a chart function that raises makes a dead end.  In a session that
    displays a chart whose function raises, every execution, whatever is
    pressed, stops at line 129 or 131 with that exception: it draws the
    subheader and no button, and leaves the session as it is. *)
Theorem chart_failure_is_a_dead_end
        (r : ChartFunctions) (i : Input) (s : Session) (e : PyException) :
  chart_displayed s = true ->
  truthy_str (selected_chart s) = true ->
  chart_call r (selected_chart s) = Throws e ->
  script_with r i s = ChartRaised e s [Subheader "Your Randomly Selected Chart"] /\
  session_after (script_with r i s) = s /\
  buttons (drawn (script_with r i s)) = [].
Proof.
  intros Hd Hc He.
  assert (E : after_show_press i s = s).
  { unfold after_show_press. rewrite Hd. destruct (click i) as [[| |]|]; reflexivity. }
  rewrite script_with_spec, E, Hd, Hc, He. repeat split.
Qed.

Lemma chart_failure_is_a_dead_end_witness :
  session_after
    (script_with (mkChartFunctions (Returns tt) (Throws (mkPyException true "'pclass'")))
       (mkInput (Some GoBack) 110 0)
       (run_inputs [mkInput (Some ShowChart) 100 1])) =
  run_inputs [mkInput (Some ShowChart) 100 1].
Proof.
  apply (chart_failure_is_a_dead_end
           (mkChartFunctions (Returns tt) (Throws (mkPyException true "'pclass'")))
           (mkInput (Some GoBack) 110 0)
           (run_inputs [mkInput (Some ShowChart) 100 1])
           (mkPyException true "'pclass'")); reflexivity.
Defined.
